(** * The "reviews" subgraph of the router defer tests

    A shallow embedding of [scripts/router-e2e-defer-tests/subgraphs/reviews]:
    [schema.py] (the seeded reviews, the review lookup, the Product entity),
    [tracing.py] (the exporter selection) and [app.py] (the two routes and the
    start-up switch), followed by the properties of the subgraph.

    Python values are embedded as follows: [int] is [Z], [str] is [string],
    [float] is a binary64 [float], [X | None] is [option X], a [list] is a
    [list], [os.environ] is a finite map from names to strings, and a call
    that may raise returns a [result]. *)

From Stdlib Require Import ZArith Floats.PrimFloat Floats.FloatOps.
From stdpp Require Import base option list strings gmap pretty.

(* The literal 4.6 of [schema.py] is read as Python reads it: the nearest
   binary64 number. *)
Set Warnings "-inexact-float".

Open Scope Z_scope.
Open Scope string_scope.
Open Scope list_scope.

(** ** Exceptions *)

Inductive exn : Set :=
| AssertionError
| StopIteration.

Inductive result (A : Type) : Type :=
| Ok (a : A)
| Raise (e : exn).
Arguments Ok {A} a.
Arguments Raise {A} e.

Definition bind {A B} (m : result A) (k : A -> result B) : result B :=
  match m with
  | Ok a => k a
  | Raise e => Raise e
  end.

Notation "x <- m ;;; k" := (bind m (fun x => k))
  (at level 100, m at next level, right associativity).

(** [next(iterator)] raises [StopIteration] on an exhausted iterator;
    [next(iterator, default)] yields [default] there.  The iterator is the
    list of the items it would produce, the optional argument an [option]. *)
Definition next {A} (iterator : list A) (default : option A) : result A :=
  match iterator, default with
  | x :: _, _ => Ok x
  | [], Some d => Ok d
  | [], None => Raise StopIteration
  end.

(** [assert cond], with the interpreter's default [__debug__ = True]. *)
Definition assert (cond : bool) : result unit :=
  if cond then Ok () else Raise AssertionError.

(** ** schema.py *)

(** [class Review]; [product_id] is annotated [strawberry.Private[str]]. *)
Module Review.
Record t : Set := Build
  { id : Z;
    body : string;
    product_id : string }.
End Review.

Definition reviews : list Review.t :=
  [ Review.Build 1 "A review for Apollo Federation" "apollo-federation";
    Review.Build 2 "A review for Apollo Studio" "apollo-studio" ].

(** [strawberry.ID] is a [str]. *)
Abbreviation ID := string (only parsing).

Module Product.
Record t : Set := Build
  { id : ID;
    reviews_count : Z;
    reviews_score : float }.
End Product.

(** [list(filter(lambda r: r.product_id == root.id, reviews))] *)
Definition get_reviews (root : Product.t) : list Review.t :=
  filter (fun r => Review.product_id r = Product.id root) reviews.

(** [Product.resolve_reference], a class method: [cls] is not used. *)
Definition resolve_reference (id : ID) : Product.t :=
  Product.Build id 3 4.6%float.

(** [Query.review]: [next((r for r in reviews if r.id == id), None)] *)
Definition review (id : Z) : result (option Review.t) :=
  next (Some <$> filter (fun r => Review.id r = id) reviews) (Some None).

(** The one [schema] object of the module; [extensions=[]] at construction.
    The other arguments of [strawberry.federation.Schema] (the query type,
    the entity types, federation 2) are fixed by the definitions above. *)
Inductive Extension : Set := OpenTelemetryExtension.

Record Schema : Set := { extensions : list Extension }.

Definition schema : Schema := {| extensions := [] |}.

(** ** os.environ and the values read from it *)

(** [os.environ.get(key, default)] gives the string of the variable, or the
    default, which in [tracing.py] is a string or an integer. *)
Inductive pyval : Set :=
| PyStr (s : string)
| PyInt (z : Z).

Definition environ_get (environ : gmap string string) (key : string)
    (default : pyval) : pyval :=
  match environ !! key with
  | Some s => PyStr s
  | None => default
  end.

(** A replacement field of an f-string: [format(v, "")], that is [str(v)]. *)
Definition format (v : pyval) : string :=
  match v with
  | PyStr s => s
  | PyInt z => pretty z
  end.

(** The truth value of a [str | None]. *)
Definition truthy (v : option string) : bool :=
  match v with
  | None => false
  | Some s => negb (String.eqb s "")
  end.

(** [v in {...}] for a [str | None] and a set of strings. *)
Definition contains (set : gset string) (v : option string) : bool :=
  match v with
  | None => false
  | Some s => bool_decide (s ∈ set)
  end.

(** ** tracing.py *)

Inductive SpanExporter : Set :=
| ZipkinExporter (endpoint : string)
| OTLPSpanExporter (endpoint : string).

Inductive SpanProcessor : Set :=
| SimpleSpanProcessor (exporter : SpanExporter)
| BatchSpanProcessor (exporter : SpanExporter).

Record TracerProvider : Set :=
  { resource : list (string * string);
    span_processors : list SpanProcessor }.

Definition add_span_processor (sp : SpanProcessor) (p : TracerProvider)
  : TracerProvider :=
  {| resource := resource p; span_processors := span_processors p ++ [sp] |}.

(** [opentelemetry.sdk.resources.SERVICE_NAME] *)
Definition SERVICE_NAME : string := "service.name".

(** The handler object [GraphQL(schema, graphiql=False)]: it keeps a
    reference to [schema], whose state lives in the [World] below. *)
Record GraphQL : Set := { graphiql : bool }.

Record Starlette : Set :=
  { routes : list (string * GraphQL);
    instrumented : bool }.

(** What the start-up code reads and writes: the schema object, the
    application, the process-wide tracer provider and standard output. *)
Record World : Set :=
  { the_schema : Schema;
    the_app : Starlette;
    tracer_provider : option TracerProvider;
    stdout : list string }.

(** [trace.set_tracer_provider]: the process-wide provider is set once. *)
Definition set_tracer_provider (p : TracerProvider) (w : World) : World :=
  {| the_schema := the_schema w;
     the_app := the_app w;
     tracer_provider :=
       match tracer_provider w with Some q => Some q | None => Some p end;
     stdout := stdout w |}.

(** [schema.extensions.append(e)] *)
Definition extensions_append (e : Extension) (w : World) : World :=
  {| the_schema := {| extensions := extensions (the_schema w) ++ [e] |};
     the_app := the_app w;
     tracer_provider := tracer_provider w;
     stdout := stdout w |}.

(** [StarletteInstrumentor().instrument_app(app)] *)
Definition instrument_app (w : World) : World :=
  {| the_schema := the_schema w;
     the_app := {| routes := routes (the_app w); instrumented := true |};
     tracer_provider := tracer_provider w;
     stdout := stdout w |}.

Definition print (line : string) (w : World) : World :=
  {| the_schema := the_schema w;
     the_app := the_app w;
     tracer_provider := tracer_provider w;
     stdout := stdout w ++ [line] |}.

(** [setup_tracing(schema, app)]: both arguments are the objects held in
    the world; the local [provider] is threaded with it. *)
Definition setup_tracing (environ : gmap string string) (w : World)
  : result World :=
  let resource := [(SERVICE_NAME, "reviews")] in
  let provider := {| resource := resource; span_processors := [] |} in
  let tracer_type := environ !! "APOLLO_OTEL_EXPORTER_TYPE" in
  _ <- assert (contains {[ "zipkin"; "collector" ]} tracer_type) ;;;
  let '(provider, w) :=
    if bool_decide (tracer_type = Some "zipkin") then
      let host := environ_get environ "APOLLO_OTEL_EXPORTER_HOST" (PyStr "localhost") in
      let port := environ_get environ "APOLLO_OTEL_EXPORTER_PORT" (PyInt 9411) in
      let endpoint :=
        "http://" +:+ format host +:+ ":" +:+ format port +:+ "/api/v2/spans" in
      let zipkin_exporter := ZipkinExporter endpoint in
      let span_processor := SimpleSpanProcessor zipkin_exporter in
      (add_span_processor span_processor provider,
       print "Tracing enabled with Zipkin exporter" w)
    else (provider, w) in
  let '(provider, w) :=
    if bool_decide (tracer_type = Some "collector") then
      let host := environ_get environ "APOLLO_OTEL_EXPORTER_HOST" (PyStr "localhost") in
      let port := environ_get environ "APOLLO_OTEL_EXPORTER_PORT" (PyInt 9411) in
      let endpoint :=
        "http://" +:+ format host +:+ ":" +:+ format port +:+ "/v1/traces" in
      let otlp_exporter := OTLPSpanExporter endpoint in
      let span_processor := BatchSpanProcessor otlp_exporter in
      (add_span_processor span_processor provider,
       print "Tracing enabled with Collector exporter" w)
    else (provider, w) in
  let w := set_tracer_provider provider w in
  let w := extensions_append OpenTelemetryExtension w in
  Ok (instrument_app w).

(** ** app.py *)

Definition graphql_app : GraphQL := {| graphiql := false |}.

(** [Starlette()] *)
Definition Starlette_new : Starlette := {| routes := []; instrumented := false |}.

(** [app.add_route(path, route)] *)
Definition add_route (path : string) (route : GraphQL) (app : Starlette)
  : Starlette :=
  {| routes := routes app ++ [(path, route)]; instrumented := instrumented app |}.

(** The module body of [app.py], run once when the server imports it: the
    application object exists for the server only if this returns. *)
Definition startup (environ : gmap string string) : result World :=
  let app := Starlette_new in
  let app := add_route "/" graphql_app app in
  let app := add_route "/graphql" graphql_app app in
  let w := {| the_schema := schema; the_app := app;
              tracer_provider := None; stdout := [] |} in
  if truthy (environ !! "APOLLO_OTEL_EXPORTER_TYPE")
  then setup_tracing environ w
  else Ok w.

(** *** Serving a request

    The router hands a request to the first route whose path matches; the
    two paths of this application are literal.  What the handler answers is
    the work of the GraphQL library: it is a parameter here. *)
Section Serving.
Context {Query Response : Type}.
Variable execute : GraphQL -> World -> Query -> Response.

Definition route_for (w : World) (path : string) : option GraphQL :=
  snd <$> List.find (fun r => String.eqb r.1 path) (routes (the_app w)).

Definition serve (w : World) (path : string) (q : Query) : option Response :=
  (fun h => execute h w q) <$> route_for w path.
End Serving.

(** ** Outcomes of the start-up

    Names for the environment variables and for the worlds the start-up can
    end in; the statements below are written with them. *)

Abbreviation TYPE := "APOLLO_OTEL_EXPORTER_TYPE" (only parsing).
Abbreviation HOST := "APOLLO_OTEL_EXPORTER_HOST" (only parsing).
Abbreviation PORT := "APOLLO_OTEL_EXPORTER_PORT" (only parsing).

(** The world that [app.py] builds before it looks at the environment. *)
Definition untraced : World :=
  {| the_schema := {| extensions := [] |};
     the_app := {| routes := [("/", graphql_app); ("/graphql", graphql_app)];
                   instrumented := false |};
     tracer_provider := None;
     stdout := [] |}.

(** The world after a tracing set-up that attached [sp] and printed [line]. *)
Definition traced (sp : SpanProcessor) (line : string) (w : World) : World :=
  instrument_app
    (extensions_append OpenTelemetryExtension
       (set_tracer_provider
          {| resource := [(SERVICE_NAME, "reviews")]; span_processors := [sp] |}
          (print line w))).

Definition endpoint_of (environ : gmap string string) (path : string) : string :=
  "http://" +:+ format (environ_get environ HOST (PyStr "localhost"))
  +:+ ":" +:+ format (environ_get environ PORT (PyInt 9411)) +:+ path.

(** * Properties *)

(** ** Scanning and filtering a list *)

Section Scan.
Context {A : Type} (P : A -> Prop) `{!forall x, Decision (P x)}.

(** The head of a filtered list is the first element of the list that
    passes the test. *)
Lemma filter_head_first (l : list A) (x : A) (k : list A) :
  filter P l = x :: k ->
  exists before after,
    l = before ++ x :: after /\ P x /\ Forall (fun y => ~ P y) before.
Proof.
  induction l as [|y l IH]; intros Hf; [discriminate|].
  rewrite filter_cons in Hf. destruct (decide (P y)) as [Hy|Hy].
  - injection Hf as -> _. exists [], l. auto.
  - destruct (IH Hf) as (before & after & -> & Hx & Hall).
    exists (y :: before), after. auto.
Qed.

Lemma filter_nil_none (l : list A) :
  filter P l = [] -> Forall (fun y => ~ P y) l.
Proof.
  induction l as [|y l IH]; intros Hf; [constructor|].
  rewrite filter_cons in Hf. destruct (decide (P y)); [discriminate|auto].
Qed.

(** What [next((x for x in l if P x), None)] gives on any list. *)
Lemma next_filter_default (l : list A) :
  match next (Some <$> filter P l) (Some None) with
  | Ok (Some x) =>
      exists before after,
        l = before ++ x :: after /\ P x /\ Forall (fun y => ~ P y) before
  | Ok None => Forall (fun y => ~ P y) l
  | Raise _ => False
  end.
Proof.
  destruct (filter P l) as [|x k] eqn:Hf; simpl.
  - by apply filter_nil_none.
  - by apply filter_head_first with k.
Qed.

(** On a list without repetition the filter is the only sublist holding
    exactly the elements that pass the test. *)
Lemma filter_only_sublist (l k : list A) :
  NoDup l ->
  k `sublist_of` l ->
  (forall x, x ∈ k <-> x ∈ l /\ P x) ->
  k = filter P l.
Proof.
  intros Hnd. revert k.
  induction Hnd as [|y l Hy Hnd IH]; intros k Hsub Hiff.
  - by apply sublist_nil_r in Hsub as ->.
  - rewrite filter_cons.
    apply sublist_cons_r in Hsub as [Hsub|(k' & -> & Hsub)].
    + assert (~ P y) as HPy.
      { intros HPy. apply Hy, (sublist_subseteq _ _ Hsub), Hiff.
        split; [left|done]. }
      rewrite decide_False by done. apply IH; [done|].
      intros x. split.
      * intros Hx. split; [by apply (sublist_subseteq _ _ Hsub)|by apply Hiff].
      * intros [Hx HPx]. apply Hiff. split; [by right|done].
    + assert (P y) as HPy by (apply Hiff; left).
      rewrite decide_True by done. f_equal. apply IH; [done|].
      intros x. split.
      * intros Hx. split; [by apply (sublist_subseteq _ _ Hsub)|].
        apply Hiff. by right.
      * intros [Hx HPx].
        assert (x ∈ y :: k') as Hin by (apply Hiff; split; [by right|done]).
        apply elem_of_cons in Hin as [->|Hin]; [contradiction|done].
Qed.
End Scan.

(** ** The review collection and its two readers *)

Lemma reviews_NoDup : NoDup reviews.
Proof.
  unfold reviews. apply NoDup_cons. split; [|apply NoDup_singleton].
  rewrite list_elem_of_singleton. discriminate.
Qed.

(** C1: for every integer [id], [Query.review] returns without raising;
    its result is the first review of the collection, in order, whose id is
    [id] (every review before it has another id), or [None] when no review
    of the collection has that id.  Id 1 gives the review with body
    "A review for Apollo Federation", id 999 gives [None]. *)
Theorem review_first_match (id : Z) :
  match review id with
  | Ok (Some r) =>
      exists before after,
        reviews = before ++ r :: after /\
        Review.id r = id /\
        Forall (fun x => Review.id x <> id) before
  | Ok None => Forall (fun x => Review.id x <> id) reviews
  | Raise _ => False
  end
  /\ review 1
     = Ok (Some (Review.Build 1 "A review for Apollo Federation" "apollo-federation"))
  /\ review 999 = Ok None.
Proof.
  split; [|split; reflexivity].
  unfold review. apply (next_filter_default (fun r => Review.id r = id)).
Qed.

(** C9: the collection holds exactly two reviews, of ids 1 and 2, in this
    order; every other id is looked up to [None], and id 2 gives the review
    with body "A review for Apollo Studio". *)
Theorem reviews_seeded :
  length reviews = 2%nat
  /\ Review.id <$> reviews = [1; 2]
  /\ (forall id : Z, id <> 1 -> id <> 2 -> review id = Ok None)
  /\ review 2 = Ok (Some (Review.Build 2 "A review for Apollo Studio" "apollo-studio")).
Proof.
  repeat split.
  intros id H1 H2. unfold review, reviews.
  rewrite !filter_cons_False, filter_nil; simpl; congruence.
Qed.

Lemma reviews_seeded_witness : review 0 = Ok None.
Proof.
  destruct reviews_seeded as (_ & _ & H & _).
  apply (H 0); lia.
Defined.

(** C2: whatever the key, [Product.resolve_reference] returns a Product
    with [reviews_count = 3] and [reviews_score = 4.6], the binary64 number
    nearest to 4.6; as a total function it has no failing input. *)
Theorem resolve_reference_stub (key : ID) :
  Product.reviews_count (resolve_reference key) = 3
  /\ Product.reviews_score (resolve_reference key) = 4.6%float
  /\ Prim2SF (Product.reviews_score (resolve_reference key))
     = SpecFloat.S754_finite false 5179139571476070 (-50).
Proof. repeat split. Qed.

(** C10: the stub carries the supplied key as its id, unchanged, so the
    reviews of the resolved Product are the collection filtered on that
    very key. *)
Theorem resolve_reference_passes_key (key : ID) :
  Product.id (resolve_reference key) = key
  /\ get_reviews (resolve_reference key)
     = filter (fun r => Review.product_id r = key) reviews.
Proof. split; reflexivity. Qed.

(** C3: for every Product, [get_reviews] returns a sublist of the
    collection (the seeded order is kept) whose elements are exactly the
    reviews of the collection with [product_id] equal to the Product's id,
    and it is the only such sublist; for a Product of id
    "apollo-federation" that is the one review of that product. *)
Theorem get_reviews_exact (root : Product.t) :
  get_reviews root `sublist_of` reviews
  /\ (forall r, r ∈ get_reviews root
                <-> r ∈ reviews /\ Review.product_id r = Product.id root)
  /\ (forall l, l `sublist_of` reviews ->
        (forall r, r ∈ l <-> r ∈ reviews /\ Review.product_id r = Product.id root) ->
        l = get_reviews root)
  /\ (Product.id root = "apollo-federation" ->
      get_reviews root
      = [Review.Build 1 "A review for Apollo Federation" "apollo-federation"]).
Proof.
  unfold get_reviews. split; [apply sublist_filter|]. split; [|split].
  - intros r. rewrite list_elem_of_filter. tauto.
  - intros l Hsub Hiff. by apply filter_only_sublist; [apply reviews_NoDup| |].
  - intros ->. reflexivity.
Qed.

Lemma get_reviews_exact_witness :
  get_reviews (Product.Build "apollo-federation" 3 4.6%float)
  = [Review.Build 1 "A review for Apollo Federation" "apollo-federation"]
  /\ [Review.Build 1 "A review for Apollo Federation" "apollo-federation"]
     = get_reviews (Product.Build "apollo-federation" 3 4.6%float).
Proof.
  destruct (get_reviews_exact (Product.Build "apollo-federation" 3 4.6%float))
    as (_ & Hin & Honly & Hone).
  split; [apply Hone; reflexivity|].
  apply Honly.
  - apply sublist_skip, sublist_nil_l.
  - intros r. rewrite list_elem_of_singleton. unfold reviews. simpl.
    rewrite elem_of_cons, list_elem_of_singleton. split.
    + intros ->. split; [by left|reflexivity].
    + intros [[->| ->] H]; [reflexivity|discriminate H].
Defined.

(** ** The exporter selection *)

Lemma contains_selector (s : string) :
  contains {[ "zipkin"; "collector" ]} (Some s)
  = bool_decide (s = "zipkin" \/ s = "collector").
Proof. unfold contains. apply bool_decide_ext. set_solver. Qed.

Lemma setup_tracing_zipkin (environ : gmap string string) (w : World) :
  environ !! TYPE = Some "zipkin" ->
  setup_tracing environ w
  = Ok (traced (SimpleSpanProcessor (ZipkinExporter (endpoint_of environ "/api/v2/spans")))
          "Tracing enabled with Zipkin exporter" w).
Proof.
  intros Hty. unfold setup_tracing. rewrite Hty, contains_selector.
  rewrite bool_decide_true by (by left). reflexivity.
Qed.

Lemma setup_tracing_collector (environ : gmap string string) (w : World) :
  environ !! TYPE = Some "collector" ->
  setup_tracing environ w
  = Ok (traced (BatchSpanProcessor (OTLPSpanExporter (endpoint_of environ "/v1/traces")))
          "Tracing enabled with Collector exporter" w).
Proof.
  intros Hty. unfold setup_tracing. rewrite Hty, contains_selector.
  rewrite bool_decide_true by (by right). reflexivity.
Qed.

Lemma setup_tracing_unrecognised (environ : gmap string string) (w : World) :
  environ !! TYPE <> Some "zipkin" ->
  environ !! TYPE <> Some "collector" ->
  setup_tracing environ w = Raise AssertionError.
Proof.
  intros Hz Hc. unfold setup_tracing.
  destruct (environ !! TYPE) as [s|]; [|reflexivity].
  rewrite contains_selector, bool_decide_false; [reflexivity|].
  intros [-> | ->]; congruence.
Qed.

Lemma truthy_Some (s : string) : s <> "" -> truthy (Some s) = true.
Proof.
  intros Hs. unfold truthy. apply negb_true_iff, String.eqb_neq, Hs.
Qed.

Lemma endpoint_of_default (environ : gmap string string) (path : string) :
  environ !! HOST = None ->
  environ !! PORT = None ->
  endpoint_of environ path = "http://localhost:9411" +:+ path.
Proof.
  intros Hh Hp. unfold endpoint_of, environ_get. rewrite Hh, Hp. reflexivity.
Qed.

Lemma startup_disabled (environ : gmap string string) :
  truthy (environ !! TYPE) = false -> startup environ = Ok untraced.
Proof. intros Hty. unfold startup. rewrite Hty. reflexivity. Qed.

Lemma startup_enabled (environ : gmap string string) :
  truthy (environ !! TYPE) = true ->
  startup environ = setup_tracing environ untraced.
Proof. intros Hty. unfold startup. rewrite Hty. reflexivity. Qed.

(** C4: with [APOLLO_OTEL_EXPORTER_TYPE] absent or empty the start-up ends
    in the untraced world (no provider, no extension, no instrumentation,
    nothing printed); with "zipkin" or "collector" it ends with a provider
    holding one processor around one exporter; with any other non-empty
    value it raises [AssertionError], so no application is produced. *)
Theorem startup_exporter_selection (environ : gmap string string) :
  (environ !! TYPE = None \/ environ !! TYPE = Some "" ->
   startup environ = Ok untraced)
  /\ (environ !! TYPE = Some "zipkin" ->
      exists w endpoint,
        startup environ = Ok w /\
        span_processors <$> tracer_provider w
        = Some [SimpleSpanProcessor (ZipkinExporter endpoint)])
  /\ (environ !! TYPE = Some "collector" ->
      exists w endpoint,
        startup environ = Ok w /\
        span_processors <$> tracer_provider w
        = Some [BatchSpanProcessor (OTLPSpanExporter endpoint)])
  /\ (forall s, environ !! TYPE = Some s ->
        s <> "" -> s <> "zipkin" -> s <> "collector" ->
        startup environ = Raise AssertionError).
Proof.
  repeat split.
  - intros [Hty|Hty]; apply startup_disabled; by rewrite Hty.
  - intros Hty. eexists _, _.
    rewrite startup_enabled by (by rewrite Hty).
    rewrite setup_tracing_zipkin by done. split; reflexivity.
  - intros Hty. eexists _, _.
    rewrite startup_enabled by (by rewrite Hty).
    rewrite setup_tracing_collector by done. split; reflexivity.
  - intros s Hty Hs Hz Hc.
    rewrite startup_enabled by (rewrite Hty; by apply truthy_Some).
    apply setup_tracing_unrecognised; rewrite Hty; congruence.
Qed.

Lemma startup_exporter_selection_witness :
  startup ∅ = Ok untraced
  /\ startup {[ TYPE := "" ]} = Ok untraced
  /\ (exists w endpoint,
        startup {[ TYPE := "zipkin" ]} = Ok w /\
        span_processors <$> tracer_provider w
        = Some [SimpleSpanProcessor (ZipkinExporter endpoint)])
  /\ (exists w endpoint,
        startup {[ TYPE := "collector" ]} = Ok w /\
        span_processors <$> tracer_provider w
        = Some [BatchSpanProcessor (OTLPSpanExporter endpoint)])
  /\ startup {[ TYPE := "jaeger" ]} = Raise AssertionError.
Proof.
  split; [|split; [|split; [|split]]].
  - apply (startup_exporter_selection ∅). left. reflexivity.
  - apply (startup_exporter_selection {[ TYPE := "" ]}). right. reflexivity.
  - apply (startup_exporter_selection {[ TYPE := "zipkin" ]}). reflexivity.
  - apply (startup_exporter_selection {[ TYPE := "collector" ]}). reflexivity.
  - apply (startup_exporter_selection {[ TYPE := "jaeger" ]}) with "jaeger";
      [reflexivity|discriminate..].
Defined.

(** C5: with the selector "zipkin" and neither host nor port in the
    environment, the set-up attaches a [SimpleSpanProcessor] (synchronous)
    around a [ZipkinExporter] whose endpoint is exactly
    "http://localhost:9411/api/v2/spans", from any world without a provider
    and so at start-up. *)
Theorem zipkin_default_endpoint (environ : gmap string string) :
  environ !! TYPE = Some "zipkin" ->
  environ !! HOST = None ->
  environ !! PORT = None ->
  (forall w, tracer_provider w = None ->
     exists w', setup_tracing environ w = Ok w' /\
       span_processors <$> tracer_provider w'
       = Some [SimpleSpanProcessor
                 (ZipkinExporter "http://localhost:9411/api/v2/spans")])
  /\ exists w', startup environ = Ok w' /\
       span_processors <$> tracer_provider w'
       = Some [SimpleSpanProcessor
                 (ZipkinExporter "http://localhost:9411/api/v2/spans")].
Proof.
  intros Hty Hh Hp.
  assert (forall w, tracer_provider w = None ->
     exists w', setup_tracing environ w = Ok w' /\
       span_processors <$> tracer_provider w'
       = Some [SimpleSpanProcessor
                 (ZipkinExporter "http://localhost:9411/api/v2/spans")]) as Hset.
  { intros w Hw. eexists. split; [by apply setup_tracing_zipkin|].
    rewrite endpoint_of_default by done. simpl. rewrite Hw. reflexivity. }
  split; [exact Hset|].
  rewrite startup_enabled by (by rewrite Hty). by apply Hset.
Qed.

Lemma zipkin_default_endpoint_witness :
  exists w', startup {[ TYPE := "zipkin" ]} = Ok w' /\
    span_processors <$> tracer_provider w'
    = Some [SimpleSpanProcessor
              (ZipkinExporter "http://localhost:9411/api/v2/spans")].
Proof.
  apply (zipkin_default_endpoint {[ TYPE := "zipkin" ]}); reflexivity.
Defined.

(** C6: with the selector "collector" and neither host nor port in the
    environment, the set-up attaches a [BatchSpanProcessor] (batching)
    around an [OTLPSpanExporter] whose endpoint is exactly
    "http://localhost:9411/v1/traces": the default host and the default
    port 9411 of the zipkin branch. *)
Theorem collector_default_endpoint (environ : gmap string string) :
  environ !! TYPE = Some "collector" ->
  environ !! HOST = None ->
  environ !! PORT = None ->
  (forall w, tracer_provider w = None ->
     exists w', setup_tracing environ w = Ok w' /\
       span_processors <$> tracer_provider w'
       = Some [BatchSpanProcessor
                 (OTLPSpanExporter "http://localhost:9411/v1/traces")])
  /\ exists w', startup environ = Ok w' /\
       span_processors <$> tracer_provider w'
       = Some [BatchSpanProcessor
                 (OTLPSpanExporter "http://localhost:9411/v1/traces")].
Proof.
  intros Hty Hh Hp.
  assert (forall w, tracer_provider w = None ->
     exists w', setup_tracing environ w = Ok w' /\
       span_processors <$> tracer_provider w'
       = Some [BatchSpanProcessor
                 (OTLPSpanExporter "http://localhost:9411/v1/traces")]) as Hset.
  { intros w Hw. eexists. split; [by apply setup_tracing_collector|].
    rewrite endpoint_of_default by done. simpl. rewrite Hw. reflexivity. }
  split; [exact Hset|].
  rewrite startup_enabled by (by rewrite Hty). by apply Hset.
Qed.

Lemma collector_default_endpoint_witness :
  exists w', startup {[ TYPE := "collector" ]} = Ok w' /\
    span_processors <$> tracer_provider w'
    = Some [BatchSpanProcessor
              (OTLPSpanExporter "http://localhost:9411/v1/traces")].
Proof.
  apply (collector_default_endpoint {[ TYPE := "collector" ]}); reflexivity.
Defined.

(** ** The two routes *)

(** The tracing set-up leaves the routes as [app.py] registered them. *)
Lemma startup_routes (environ : gmap string string) (w : World) :
  startup environ = Ok w ->
  routes (the_app w) = [("/", graphql_app); ("/graphql", graphql_app)].
Proof.
  destruct (truthy (environ !! TYPE)) eqn:Hty.
  - rewrite startup_enabled by done.
    destruct (decide (environ !! TYPE = Some "zipkin")) as [Hz|Hz];
      [rewrite setup_tracing_zipkin by done; by intros [= <-]|].
    destruct (decide (environ !! TYPE = Some "collector")) as [Hc|Hc];
      [rewrite setup_tracing_collector by done; by intros [= <-]|].
    rewrite setup_tracing_unrecognised by done. discriminate.
  - rewrite startup_disabled by done. by intros [= <-].
Qed.

(** C8: after any start-up that returns, "/" and "/graphql" are routed to
    the same handler object, [graphql_app]; hence, whatever the handler
    computes from a query, both paths answer every query, and with the same
    response. *)
Theorem both_paths_same_handler {Query Response : Type}
    (execute : GraphQL -> World -> Query -> Response)
    (environ : gmap string string) (w : World) :
  startup environ = Ok w ->
  route_for w "/" = Some graphql_app
  /\ route_for w "/graphql" = Some graphql_app
  /\ forall q : Query,
       serve execute w "/" q = Some (execute graphql_app w q)
       /\ serve execute w "/graphql" q = serve execute w "/" q.
Proof.
  intros Hw. apply startup_routes in Hw.
  unfold serve, route_for. rewrite Hw. repeat split.
Qed.

Lemma both_paths_same_handler_witness :
  serve (fun _ _ q => q) untraced "/" "{ review(id: 1) { body } }"
  = Some "{ review(id: 1) { body } }"
  /\ serve (fun _ _ q => q) untraced "/graphql" "{ review(id: 1) { body } }"
     = serve (fun _ _ q => q) untraced "/" "{ review(id: 1) { body } }".
Proof.
  apply (both_paths_same_handler (fun _ _ (q : string) => q) ∅ untraced).
  reflexivity.
Defined.

(** * Further properties of the code *)

(** ** tracing.py beyond the defaults *)

Lemma format_environ_get_str (environ : gmap string string) (key d : string) :
  format (environ_get environ key (PyStr d)) = default d (environ !! key).
Proof. unfold environ_get. by destruct (environ !! key). Qed.

Lemma format_environ_get_port (environ : gmap string string) (key : string) :
  format (environ_get environ key (PyInt 9411)) = default "9411" (environ !! key).
Proof. unfold environ_get. by destruct (environ !! key). Qed.

Lemma endpoint_of_overrides (environ : gmap string string) (path : string) :
  endpoint_of environ path
  = "http://" +:+ default "localhost" (environ !! HOST)
    +:+ ":" +:+ default "9411" (environ !! PORT) +:+ path.
Proof.
  unfold endpoint_of.
  by rewrite format_environ_get_str, format_environ_get_port.
Qed.

(** X1: called on its own, [setup_tracing] returns exactly when the selector
    is "zipkin" or "collector"; with any other selector, the empty string
    and an unset variable included, it raises [AssertionError]. *)
Theorem setup_tracing_returns_iff (environ : gmap string string) (w : World) :
  ((exists w', setup_tracing environ w = Ok w')
   <-> environ !! TYPE = Some "zipkin" \/ environ !! TYPE = Some "collector")
  /\ (environ !! TYPE <> Some "zipkin" ->
      environ !! TYPE <> Some "collector" ->
      setup_tracing environ w = Raise AssertionError).
Proof.
  split; [|apply setup_tracing_unrecognised].
  split.
  - intros [w' Hw'].
    destruct (decide (environ !! TYPE = Some "zipkin")) as [|Hz]; [by left|].
    destruct (decide (environ !! TYPE = Some "collector")) as [|Hc]; [by right|].
    rewrite setup_tracing_unrecognised in Hw' by done. discriminate.
  - intros [Hty|Hty]; eexists.
    + by apply setup_tracing_zipkin.
    + by apply setup_tracing_collector.
Qed.

Lemma setup_tracing_returns_iff_witness :
  setup_tracing ∅ untraced = Raise AssertionError
  /\ setup_tracing {[ TYPE := "" ]} untraced = Raise AssertionError.
Proof.
  split.
  - apply (setup_tracing_returns_iff ∅ untraced); discriminate.
  - apply (setup_tracing_returns_iff {[ TYPE := "" ]} untraced); discriminate.
Defined.

(** X2: the endpoint is "http://HOST:PORT" followed by "/api/v2/spans" for
    zipkin and "/v1/traces" for the collector, where a variable that is set
    is used as it is, the empty string included, and only an unset variable
    gives way to "localhost" or "9411". *)
Theorem endpoint_from_environment (environ : gmap string string) :
  (environ !! TYPE = Some "zipkin" ->
   exists w, startup environ = Ok w /\
     span_processors <$> tracer_provider w
     = Some [SimpleSpanProcessor (ZipkinExporter
               ("http://" +:+ default "localhost" (environ !! HOST)
                +:+ ":" +:+ default "9411" (environ !! PORT)
                +:+ "/api/v2/spans"))])
  /\ (environ !! TYPE = Some "collector" ->
      exists w, startup environ = Ok w /\
        span_processors <$> tracer_provider w
        = Some [BatchSpanProcessor (OTLPSpanExporter
                  ("http://" +:+ default "localhost" (environ !! HOST)
                   +:+ ":" +:+ default "9411" (environ !! PORT)
                   +:+ "/v1/traces"))]).
Proof.
  split; intros Hty; eexists;
    rewrite startup_enabled by (by rewrite Hty).
  - rewrite setup_tracing_zipkin by done. split; [reflexivity|].
    by rewrite endpoint_of_overrides.
  - rewrite setup_tracing_collector by done. split; [reflexivity|].
    by rewrite endpoint_of_overrides.
Qed.

Lemma endpoint_from_environment_witness :
  (exists w,
     startup {[ TYPE := "zipkin"; HOST := ""; PORT := "4318" ]} = Ok w /\
     span_processors <$> tracer_provider w
     = Some [SimpleSpanProcessor (ZipkinExporter "http://:4318/api/v2/spans")])
  /\ (exists w,
        startup {[ TYPE := "collector"; HOST := "otel"; PORT := "" ]} = Ok w /\
        span_processors <$> tracer_provider w
        = Some [BatchSpanProcessor (OTLPSpanExporter "http://otel:/v1/traces")]).
Proof.
  split.
  - destruct (endpoint_from_environment
                {[ TYPE := "zipkin"; HOST := ""; PORT := "4318" ]})
      as [Hz _].
    destruct (Hz eq_refl) as (w & Hw & Hsp). exists w. split; [exact Hw|exact Hsp].
  - destruct (endpoint_from_environment
                {[ TYPE := "collector"; HOST := "otel"; PORT := "" ]})
      as [_ Hc].
    destruct (Hc eq_refl) as (w & Hw & Hsp). exists w. split; [exact Hw|exact Hsp].
Defined.

Lemma setup_tracing_cases (environ : gmap string string) (w w' : World) :
  setup_tracing environ w = Ok w' ->
  exists endpoint sp line,
    (sp = SimpleSpanProcessor (ZipkinExporter endpoint)
     /\ line = "Tracing enabled with Zipkin exporter"
     \/ sp = BatchSpanProcessor (OTLPSpanExporter endpoint)
        /\ line = "Tracing enabled with Collector exporter")
    /\ w' = traced sp line w.
Proof.
  destruct (decide (environ !! TYPE = Some "zipkin")) as [Hz|Hz].
  { rewrite setup_tracing_zipkin by done. intros [= <-].
    eexists _, _, _. split; [left; split; reflexivity|reflexivity]. }
  destruct (decide (environ !! TYPE = Some "collector")) as [Hc|Hc].
  { rewrite setup_tracing_collector by done. intros [= <-].
    eexists _, _, _. split; [right; split; reflexivity|reflexivity]. }
  rewrite setup_tracing_unrecognised by done. discriminate.
Qed.

(** X4: a start-up that returns leaves tracing entirely off (no provider,
    no schema extension, no instrumentation, nothing printed) or entirely
    on: a provider for the service "reviews" with exactly one processor,
    simple around a Zipkin exporter or batching around an OTLP exporter and
    never the other pairing, the one tracing extension, the application
    instrumented and the matching line printed. *)
Theorem startup_all_or_nothing (environ : gmap string string) (w : World) :
  startup environ = Ok w ->
  (tracer_provider w = None
   /\ extensions (the_schema w) = []
   /\ instrumented (the_app w) = false
   /\ stdout w = [])
  \/ (exists endpoint sp line,
        (sp = SimpleSpanProcessor (ZipkinExporter endpoint)
         /\ line = "Tracing enabled with Zipkin exporter"
         \/ sp = BatchSpanProcessor (OTLPSpanExporter endpoint)
            /\ line = "Tracing enabled with Collector exporter")
        /\ tracer_provider w
           = Some {| resource := [("service.name", "reviews")];
                     span_processors := [sp] |}
        /\ extensions (the_schema w) = [OpenTelemetryExtension]
        /\ instrumented (the_app w) = true
        /\ stdout w = [line]).
Proof.
  destruct (truthy (environ !! TYPE)) eqn:Hty.
  - rewrite startup_enabled by done. intros Hw. right.
    apply setup_tracing_cases in Hw as (endpoint & sp & line & Hsp & ->).
    exists endpoint, sp, line. split; [exact Hsp|]. repeat split.
  - rewrite startup_disabled by done. intros [= <-]. left. repeat split.
Qed.

Lemma startup_all_or_nothing_witness :
  (tracer_provider untraced = None
   /\ extensions (the_schema untraced) = []
   /\ instrumented (the_app untraced) = false
   /\ stdout untraced = [])
  /\ (exists endpoint sp line w,
        startup {[ TYPE := "zipkin" ]} = Ok w
        /\ (sp = SimpleSpanProcessor (ZipkinExporter endpoint)
            /\ line = "Tracing enabled with Zipkin exporter"
            \/ sp = BatchSpanProcessor (OTLPSpanExporter endpoint)
               /\ line = "Tracing enabled with Collector exporter")
        /\ tracer_provider w
           = Some {| resource := [("service.name", "reviews")];
                     span_processors := [sp] |}
        /\ extensions (the_schema w) = [OpenTelemetryExtension]
        /\ instrumented (the_app w) = true
        /\ stdout w = [line]).
Proof.
  split.
  - assert (startup ∅ = Ok untraced) as Hw by reflexivity.
    destruct (startup_all_or_nothing _ _ Hw) as [Hoff|Hon]; [exact Hoff|].
    destruct Hon as (? & ? & ? & _ & Hp & _). discriminate Hp.
  - assert (startup {[ TYPE := "zipkin" ]}
            = Ok (traced (SimpleSpanProcessor
                            (ZipkinExporter "http://localhost:9411/api/v2/spans"))
                    "Tracing enabled with Zipkin exporter" untraced)) as Hw
      by (vm_compute; reflexivity).
    destruct (startup_all_or_nothing _ _ Hw) as [Hoff|Hon].
    + destruct Hoff as [Hp _]. discriminate Hp.
    + destruct Hon as (endpoint & sp & line & Hsp & Hrest).
      exists endpoint, sp, line. eexists. split; [exact Hw|].
      split; [exact Hsp|exact Hrest].
Defined.

(** X5: on any world, a set-up that returns keeps the routes, appends the
    tracing extension at the end of the schema's extensions, marks the
    application as instrumented, prints one line after what was printed,
    and leaves a process-wide provider in place. *)
Theorem setup_tracing_frame (environ : gmap string string) (w w' : World) :
  setup_tracing environ w = Ok w' ->
  routes (the_app w') = routes (the_app w)
  /\ extensions (the_schema w')
     = extensions (the_schema w) ++ [OpenTelemetryExtension]
  /\ instrumented (the_app w') = true
  /\ (exists line, stdout w' = stdout w ++ [line])
  /\ is_Some (tracer_provider w').
Proof.
  intros Hw. apply setup_tracing_cases in Hw as (endpoint & sp & line & _ & ->).
  repeat split; [by exists line|].
  simpl. destruct (tracer_provider w); by eexists.
Qed.

Lemma setup_tracing_frame_witness :
  exists w',
    setup_tracing {[ TYPE := "collector" ]} untraced = Ok w'
    /\ routes (the_app w') = routes (the_app untraced)
    /\ extensions (the_schema w') = [OpenTelemetryExtension].
Proof.
  eexists. split; [reflexivity|].
  split; eapply (setup_tracing_frame {[ TYPE := "collector" ]} untraced);
    reflexivity.
Defined.

(** X6: the set-up is not idempotent: when it returns once it returns
    again on the world it produced, and the schema then holds the tracing
    extension twice and the line is printed twice. *)
Theorem setup_tracing_twice (environ : gmap string string) (w w1 : World) :
  setup_tracing environ w = Ok w1 ->
  exists w2 line,
    setup_tracing environ w1 = Ok w2
    /\ extensions (the_schema w2)
       = extensions (the_schema w)
         ++ [OpenTelemetryExtension; OpenTelemetryExtension]
    /\ stdout w2 = stdout w ++ [line; line].
Proof.
  destruct (decide (environ !! TYPE = Some "zipkin")) as [Hz|Hz].
  { rewrite setup_tracing_zipkin by done. intros [= <-].
    eexists _, _. split; [by apply setup_tracing_zipkin|].
    simpl. by rewrite <- !(assoc_L (++)). }
  destruct (decide (environ !! TYPE = Some "collector")) as [Hc|Hc].
  { rewrite setup_tracing_collector by done. intros [= <-].
    eexists _, _. split; [by apply setup_tracing_collector|].
    simpl. by rewrite <- !(assoc_L (++)). }
  rewrite setup_tracing_unrecognised by done. discriminate.
Qed.

Lemma setup_tracing_twice_witness :
  exists w1 w2 line,
    setup_tracing {[ TYPE := "zipkin" ]} untraced = Ok w1
    /\ setup_tracing {[ TYPE := "zipkin" ]} w1 = Ok w2
    /\ extensions (the_schema w2)
       = [OpenTelemetryExtension; OpenTelemetryExtension]
    /\ stdout w2 = [line; line].
Proof.
  assert (setup_tracing {[ TYPE := "zipkin" ]} untraced
          = Ok (traced (SimpleSpanProcessor
                          (ZipkinExporter "http://localhost:9411/api/v2/spans"))
                  "Tracing enabled with Zipkin exporter" untraced)) as H1
    by (vm_compute; reflexivity).
  destruct (setup_tracing_twice _ _ _ H1) as (w2 & line & H2 & Hext & Hout).
  eexists _, w2, line. split; [exact H1|]. split; [exact H2|].
  split; [exact Hext|exact Hout].
Defined.

(** ** schema.py: how the two readers fit together *)

Lemma review_of_seeded (r : Review.t) :
  r ∈ reviews -> review (Review.id r) = Ok (Some r).
Proof.
  unfold reviews. rewrite elem_of_cons, list_elem_of_singleton.
  intros [-> | ->]; reflexivity.
Qed.

Lemma review_Some_inv (n : Z) (r : Review.t) :
  review n = Ok (Some r) -> r ∈ reviews /\ Review.id r = n.
Proof.
  intros Hr.
  pose proof (next_filter_default (fun x => Review.id x = n) reviews) as Hspec.
  fold (review n) in Hspec. rewrite Hr in Hspec.
  destruct Hspec as (before & after & Heq & Hid & _).
  split; [|exact Hid]. rewrite Heq. apply elem_of_app. right. left.
Qed.

Lemma get_reviews_length (root : Product.t) :
  (length (get_reviews root) <= 1)%nat.
Proof.
  unfold get_reviews, reviews. rewrite !filter_cons, filter_nil. simpl.
  repeat case_decide; simpl; try lia. congruence.
Qed.

(** X7: lookup by id and the collection agree both ways: every seeded
    review is what the lookup returns for its own id, and a review returned
    for an id is a seeded review carrying that id. *)
Theorem review_round_trip :
  (forall r : Review.t, r ∈ reviews -> review (Review.id r) = Ok (Some r))
  /\ (forall (n : Z) (r : Review.t),
        review n = Ok (Some r) -> r ∈ reviews /\ Review.id r = n).
Proof. split; [apply review_of_seeded|apply review_Some_inv]. Qed.

Lemma review_round_trip_witness :
  review (Review.id (Review.Build 2 "A review for Apollo Studio" "apollo-studio"))
  = Ok (Some (Review.Build 2 "A review for Apollo Studio" "apollo-studio"))
  /\ Review.Build 1 "A review for Apollo Federation" "apollo-federation" ∈ reviews.
Proof.
  destruct review_round_trip as [Hto Hfrom]. split.
  - apply Hto. right. left.
  - apply (Hfrom 1). reflexivity.
Defined.

(** X8: every review listed for a Product can be fetched again by its id,
    and it is a review of that Product's key. *)
Theorem get_reviews_then_review (root : Product.t) (r : Review.t) :
  r ∈ get_reviews root ->
  review (Review.id r) = Ok (Some r)
  /\ Review.product_id r = Product.id root.
Proof.
  unfold get_reviews. rewrite list_elem_of_filter. intros [Hkey Hin].
  split; [by apply review_of_seeded|exact Hkey].
Qed.

Lemma get_reviews_then_review_witness :
  review 2 = Ok (Some (Review.Build 2 "A review for Apollo Studio" "apollo-studio"))
  /\ "apollo-studio" = "apollo-studio".
Proof.
  apply (get_reviews_then_review (resolve_reference "apollo-studio")
           (Review.Build 2 "A review for Apollo Studio" "apollo-studio")).
  left.
Defined.

(** X9: a Product never has more than one review, and it has none exactly
    when its key is neither "apollo-federation" nor "apollo-studio"; an
    unknown key is not an error. *)
Theorem get_reviews_at_most_one (root : Product.t) :
  (length (get_reviews root) <= 1)%nat
  /\ (get_reviews root = []
      <-> Product.id root <> "apollo-federation"
          /\ Product.id root <> "apollo-studio").
Proof.
  split; [apply get_reviews_length|].
  unfold get_reviews, reviews. rewrite !filter_cons, filter_nil. simpl.
  repeat case_decide; split; try done; try (intros [? ?]; congruence).
Qed.

(** X10: the stub's [reviews_count] is never the number of reviews the
    Product lists: the count is 3 and the list has at most one review. *)
Theorem reviews_count_is_not_the_length (key : ID) :
  Z.of_nat (length (get_reviews (resolve_reference key)))
  < Product.reviews_count (resolve_reference key).
Proof.
  pose proof (get_reviews_length (resolve_reference key)). simpl. lia.
Qed.
